(** * kgp.utils.execute: the training wrapper and the elapsed-time helper

    A shallow embedding of [src/kgp/utils/execute.py].  The module has two
    entry points: the generator-based context manager [elapsed_timer] and
    the procedure [train], which drives one [model.fit] run and optionally
    checkpoints and reloads the best weights.

    Python's effects are made explicit.  A computation of type [Py A] takes
    the state of the process (file system, model parameters, the heap of
    list objects, standard output, the warning channel), and gives back the
    calls it made to its collaborators, either a value or the exception it
    raised, and the new state.  The operating-system calls are modelled on
    that state; the framework's [fit] is left arbitrary. *)

From Stdlib Require Import ZArith Sorted.
From stdpp Require Import gmap strings list fin_maps.

Local Open Scope Z_scope.
Local Open Scope string_scope.
Local Open Scope list_scope.

(** ** Python values the module handles *)

(** Exceptions that cross [train].  [BackendError] stands for whatever the
    framework raises from inside [fit]. *)
Inductive PyExc : Type :=
| KeyError (key : string)
| ValueError (msg : string)
| TypeError (msg : string)
| FileExistsError (path : string)
| PermissionError (path : string)
| OSError (msg : string)
| BackendError (code : nat).

Inductive outcome (A : Type) : Type :=
| Ok (a : A)
| Raised (e : PyExc).
Arguments Ok {A} a.
Arguments Raised {A} e.

(** Objects that [train] only passes along. *)
Inductive ndarray : Type := Ndarray (cells : list Z).
Inductive Weights : Type := WeightsOf (params : list Z).
Inductive History : Type := HistoryOf (epoch_losses : list Z).
Inductive pyval : Type :=
| PyNone
| PyBool (b : bool)
| PyInt (z : Z)
| PyStr (s : string).

(** Entries of a callback list: hooks of the caller, and the framework's
    [ModelCheckpoint] with the four arguments [train] gives it. *)
Inductive Callback : Type :=
| UserCallback (id : nat)
| ModelCheckpoint (filepath : string) (monitor : string)
                  (save_weights_only save_best_only : bool).

(** ** The state of the process *)

Inductive file_content : Type :=
| Hdf5Weights (w : Weights)
| Unreadable.

Inductive fs_node : Type :=
| Directory
| RegularFile (content : file_content).

(** [heap] holds the list objects, by reference: a name bound to a list is
    a key of this map, so two names bound to one list share its content.
    [weights] gives each model object its current parameters.
    [warnings_log] keeps every warning issued, shown or not. *)
Record World : Type := mkWorld {
  fs : gmap string fs_node;
  fs_writable : bool;
  weights : gmap nat Weights;
  heap : gmap nat (list Callback);
  stdout : list string;
  warnings_log : list string
}.

Definition set_fs (f : gmap string fs_node) (w : World) : World :=
  mkWorld f (fs_writable w) (weights w) (heap w) (stdout w) (warnings_log w).
Definition set_weights (m : gmap nat Weights) (w : World) : World :=
  mkWorld (fs w) (fs_writable w) m (heap w) (stdout w) (warnings_log w).
Definition set_heap (h : gmap nat (list Callback)) (w : World) : World :=
  mkWorld (fs w) (fs_writable w) (weights w) h (stdout w) (warnings_log w).
Definition set_stdout (s : list string) (w : World) : World :=
  mkWorld (fs w) (fs_writable w) (weights w) (heap w) s (warnings_log w).
Definition set_warnings_log (s : list string) (w : World) : World :=
  mkWorld (fs w) (fs_writable w) (weights w) (heap w) (stdout w) s.

Definition is_dir (w : World) (path : string) : bool :=
  match fs w !! path with
  | Some Directory => true
  | _ => false
  end.

Definition is_file (w : World) (path : string) : bool :=
  match fs w !! path with
  | Some (RegularFile _) => true
  | _ => false
  end.

(** The list a reference designates. *)
Definition deref (w : World) (ref : nat) : list Callback :=
  default [] (heap w !! ref).

(** ** Calls to collaborators *)

(** The keyword arguments [train] hands to [model.fit]. *)
Record FitCall : Type := mkFitCall {
  fit_x : ndarray;
  fit_y : ndarray;
  fit_validation_data : option (list ndarray);
  fit_batch_size : Z;
  fit_nb_epoch : Z;
  fit_callbacks : nat;
  fit_verbose : Z;
  fit_kwargs : gmap string pyval
}.

(** One entry per call that leaves the module, with what it answered.  A
    [CallFit] entry keeps the state the framework was entered with and the
    state it gave back. *)
Inductive Event : Type :=
| CallIsdir (path : string) (answer : bool)
| CallMakedirs (path : string) (r : outcome unit)
| CallStdoutWrite (text : string)
| CallStdoutFlush
| CallFit (model : nat) (args : FitCall) (before : World)
          (r : outcome History) (after : World)
| CallIsfile (path : string) (answer : bool)
| CallLoadWeights (model : nat) (path : string) (r : outcome unit)
| CallWarn (msg : string).

(** ** The monad of Python computations *)

Definition Py (A : Type) : Type := World → list Event * outcome A * World.

Definition py_ret {A : Type} (a : A) : Py A := λ w, ([], Ok a, w).

Definition py_bind {A B : Type} (f : A → Py B) (m : Py A) : Py B :=
  λ w, match m w with
       | (t1, Ok a, w1) =>
           match f a w1 with
           | (t2, r, w2) => (t1 ++ t2, r, w2)
           end
       | (t1, Raised e, w1) => (t1, Raised e, w1)
       end.

#[export] Instance Py_ret : MRet Py := @py_ret.
#[export] Instance Py_bind : MBind Py := @py_bind.

(** A branch that does nothing. *)
Definition pass : Py unit := py_ret tt.

Definition raise {A : Type} (e : PyExc) : Py A := λ w, ([], Raised e, w).

Definition trace_of {A : Type} (x : list Event * outcome A * World) : list Event :=
  x.1.1.
Definition result_of {A : Type} (x : list Event * outcome A * World) : outcome A :=
  x.1.2.
Definition world_of {A : Type} (x : list Event * outcome A * World) : World :=
  x.2.

(** ** Python's own operations *)

(** [d[k]] on a dict. *)
Definition dict_getitem {V : Type} (d : gmap string V) (k : string) : Py V :=
  match d !! k with
  | Some v => mret v
  | None => raise (KeyError k)
  end.

(** [a, b = v]. *)
Definition unpack2 {V : Type} (v : list V) : Py (V * V) :=
  match v with
  | [a; b] => mret (a, b)
  | _ :: _ :: _ :: _ => raise (ValueError "too many values to unpack (expected 2)")
  | _ => raise (ValueError "not enough values to unpack (expected 2)")
  end.

(** [if v:] on an int. *)
Definition truthy (v : Z) : bool := negb (v =? 0)%Z.

(** [ref += items] on a list: the object is extended in place. *)
Definition list_iadd (ref : nat) (items : list Callback) : Py unit :=
  λ w, ([], Ok tt, set_heap (<[ref := deref w ref ++ items]> (heap w)) w).

(** ['checkpoints/%s.h5' % checkpoint]. *)
Definition checkpoint_file (checkpoint : string) : string :=
  "checkpoints/" +:+ checkpoint +:+ ".h5".

Definition newline : string := String (Ascii.ascii_of_nat 10) "".

(** ** The operating system and the standard streams *)

Definition os_path_isdir (path : string) : Py bool :=
  λ w, ([CallIsdir path (is_dir w path)], Ok (is_dir w path), w).

Definition os_path_isfile (path : string) : Py bool :=
  λ w, ([CallIsfile path (is_file w path)], Ok (is_file w path), w).

(** [os.makedirs(path)], without [exist_ok]: an existing entry of any kind
    is an error, and so is a location that cannot be written. *)
Definition makedirs_step (path : string) (w : World) : outcome unit * World :=
  match fs w !! path with
  | Some _ => (Raised (FileExistsError path), w)
  | None =>
      if fs_writable w
      then (Ok tt, set_fs (<[path := Directory]> (fs w)) w)
      else (Raised (PermissionError path), w)
  end.

Definition os_makedirs (path : string) : Py unit :=
  λ w, match makedirs_step path w with
       | (r, w') => ([CallMakedirs path r], r, w')
       end.

Definition sys_stdout_write (text : string) : Py unit :=
  λ w, ([CallStdoutWrite text], Ok tt, set_stdout (stdout w ++ [text]) w).

Definition sys_stdout_flush : Py unit :=
  λ w, ([CallStdoutFlush], Ok tt, w).

(** [warnings.warn(msg)], under filters that do not turn a warning into an
    error. *)
Definition warnings_warn (msg : string) : Py unit :=
  λ w, ([CallWarn msg], Ok tt, set_warnings_log (warnings_log w ++ [msg]) w).

(** ** The model object *)

(** [model.load_weights(path)]: the parameters stored in the file replace
    the model's own; a file that is not a weight file is an error. *)
Definition load_weights_step (model : nat) (path : string) (w : World)
  : outcome unit * World :=
  match fs w !! path with
  | Some (RegularFile (Hdf5Weights p)) =>
      (Ok tt, set_weights (<[model := p]> (weights w)) w)
  | Some (RegularFile Unreadable) =>
      (Raised (OSError "unable to open file as a weight file"), w)
  | _ => (Raised (OSError "unable to open file"), w)
  end.

Definition model_load_weights (model : nat) (path : string) : Py unit :=
  λ w, match load_weights_step model path w with
       | (r, w') => ([CallLoadWeights model path r], r, w')
       end.

(** Keywords the call site of [model.fit] writes out itself; one of them
    arriving again through [**fit_kwargs] stops the call before it starts.
    From a Python caller only [validation_data] can arrive that way, the
    other four being parameters of [train]. *)
Definition explicit_fit_keywords : list string :=
  ["validation_data"; "batch_size"; "nb_epoch"; "callbacks"; "verbose"].

Definition duplicate_keyword (kwargs : gmap string pyval) : option string :=
  List.find (λ k, bool_decide (is_Some (kwargs !! k))) explicit_fit_keywords.

(** The record of keyword parameters of [train], and the values of the
    [def] line.  The default of [callbacks] is one list object, made when
    the [def] statement runs; [default_callbacks] is its reference. *)
Record TrainArgs : Type := mkTrainArgs {
  nb_epoch : Z;
  batch_size : Z;
  callbacks : nat;
  checkpoint : option string;
  checkpoint_monitor : string;
  verbose : Z;
  extra_fit_kwargs : gmap string pyval
}.

Definition default_callbacks : nat := 0%nat.

Definition train_defaults : TrainArgs :=
  {| nb_epoch := 100;
     batch_size := 128;
     callbacks := default_callbacks;
     checkpoint := None;
     checkpoint_monitor := "val_loss";
     verbose := 1;
     extra_fit_kwargs := ∅ |}.

(** The state once the [def train] statement has run: the default list
    exists and is empty. *)
Definition def_train (w : World) : World :=
  set_heap (<[default_callbacks := []]> (heap w)) w.

Definition no_checkpoints_warning : string :=
  "Checkpoint file was specified, but no models were " +:+
  "saved by the monitor. Make sure the validation " +:+
  "dataset is specified and the monitoring channel " +:+
  "is set correctly.".

Section Train.

(** The framework's training routine: any function of the call and of the
    state of the process. *)
Variable keras_fit : nat → FitCall → World → outcome History * World.

Definition model_fit (model : nat) (x y : ndarray)
    (validation_data : option (list ndarray)) (batch_size nb_epoch : Z)
    (callbacks : nat) (verbose : Z) (kwargs : gmap string pyval) : Py History :=
  match duplicate_keyword kwargs with
  | Some k =>
      raise (TypeError ("fit() got multiple values for keyword argument " +:+ k))
  | None =>
      λ w, let args := mkFitCall x y validation_data batch_size nb_epoch
                                 callbacks verbose kwargs in
           match keras_fit model args w with
           | (r, w') => ([CallFit model args w r w'], r, w')
           end
  end.

Definition train (model : nat) (data : gmap string (list ndarray))
    (o : TrainArgs) : Py History :=
  '(X_train, y_train) ← dict_getitem data "train" ≫= unpack2;
  '(X_test, y_test) ← dict_getitem data "test" ≫= unpack2;
  let validation_data := data !! "valid" in
  (* Make sure the checkpoints directory exists *)
  match checkpoint o with
  | Some _ =>
      present ← os_path_isdir "checkpoints/";
      if negb present then os_makedirs "checkpoints/" else pass
  | None => pass
  end;;
  (* Update list of callbacks *)
  match checkpoint o with
  | Some name =>
      list_iadd (callbacks o)
        [ModelCheckpoint (checkpoint_file name) (checkpoint_monitor o) true true]
  | None => pass
  end;;
  (* Train the model *)
  (if truthy (verbose o)
   then sys_stdout_write ("Training..." +:+ newline);; sys_stdout_flush
   else pass);;
  history ← model_fit model X_train y_train validation_data
                      (batch_size o) (nb_epoch o) (callbacks o) (verbose o)
                      (extra_fit_kwargs o);
  (if truthy (verbose o)
   then sys_stdout_write ("Done." +:+ newline)
   else pass);;
  (* Test the model *)
  match checkpoint o with
  | Some name =>
      saved ← os_path_isfile (checkpoint_file name);
      if (saved : bool)
      then model_load_weights model (checkpoint_file name)
      else warnings_warn no_checkpoints_warning
  | None => pass
  end;;
  mret history.

End Train.

(** ** The blocks of [train]

    The body of [train] read block by block, as its comments divide it:
    what happens before the framework is entered, and what happens once it
    has returned. *)

Definition bind_dataset (data : gmap string (list ndarray))
  : Py (ndarray * ndarray * option (list ndarray)) :=
  '(X_train, y_train) ← dict_getitem data "train" ≫= unpack2;
  '(X_test, y_test) ← dict_getitem data "test" ≫= unpack2;
  mret (X_train, y_train, data !! "valid").

Definition make_checkpoints_dir (o : TrainArgs) : Py unit :=
  match checkpoint o with
  | Some _ =>
      present ← os_path_isdir "checkpoints/";
      if negb present then os_makedirs "checkpoints/" else pass
  | None => pass
  end.

Definition extend_callbacks (o : TrainArgs) : Py unit :=
  match checkpoint o with
  | Some name =>
      list_iadd (callbacks o)
        [ModelCheckpoint (checkpoint_file name) (checkpoint_monitor o) true true]
  | None => pass
  end.

Definition say_training (o : TrainArgs) : Py unit :=
  if truthy (verbose o)
  then sys_stdout_write ("Training..." +:+ newline);; sys_stdout_flush
  else pass.

Definition prepare (o : TrainArgs) : Py unit :=
  make_checkpoints_dir o;; extend_callbacks o;; say_training o.

Definition say_done (o : TrainArgs) : Py unit :=
  if truthy (verbose o)
  then sys_stdout_write ("Done." +:+ newline)
  else pass.

Definition reload_best (model : nat) (o : TrainArgs) : Py unit :=
  match checkpoint o with
  | Some name =>
      saved ← os_path_isfile (checkpoint_file name);
      if (saved : bool)
      then model_load_weights model (checkpoint_file name)
      else warnings_warn no_checkpoints_warning
  | None => pass
  end.

Definition finish (model : nat) (o : TrainArgs) (history : History) : Py History :=
  say_done o;; reload_best model o;; mret history.

Definition fit_args (o : TrainArgs) (xyv : ndarray * ndarray * option (list ndarray))
  : FitCall :=
  mkFitCall xyv.1.1 xyv.1.2 xyv.2 (batch_size o) (nb_epoch o) (callbacks o)
            (verbose o) (extra_fit_kwargs o).

(** ** [elapsed_timer] *)

Section ElapsedTimer.

(** The readings of [default_timer] and Python's [-] on them. *)
Context {Time : Type} (minus : Time → Time → Time).

(** The two functions the generator binds to its local [elapsed], one
    after the other: the first reads the clock when called, the second has
    the reading taken at the end built in. *)
Inductive elapsed_fn : Type :=
| ReadsClock
| Frozen (end_ : Time).

(** The frame of the generator: [start], and the binding of [elapsed],
    which the yielded [lambda: elapsed()] looks up at each call. *)
Record timer_frame : Type := mkTimerFrame {
  start : Time;
  elapsed : elapsed_fn
}.

(** Up to the [yield]. *)
Definition timer_enter (now : Time) : timer_frame :=
  mkTimerFrame now ReadsClock.

(** The yielded callable, called when the clock reads [now]. *)
Definition timer_call (fr : timer_frame) (now : Time) : Time :=
  match elapsed fr with
  | ReadsClock => minus now (start fr)
  | Frozen end_ => minus end_ (start fr)
  end.

(** After the [yield], when the block has ended normally. *)
Definition timer_exit (fr : timer_frame) (now : Time) : timer_frame :=
  mkTimerFrame (start fr) (Frozen now).

(** What the body of [with elapsed_timer() as t:] does, as far as the timer
    is concerned: time passes, up to a new reading of the clock, or [t] is
    called. *)
Inductive block_step : Type :=
| Wait (until : Time)
| CallTimer.

(** Running a body: each call of [t] is logged with the reading of the
    clock at that moment and with what [t] returned. *)
Fixpoint run_block (fr : timer_frame) (now : Time) (body : list block_step)
  : list (Time * Time) * Time :=
  match body with
  | [] => ([], now)
  | Wait until :: rest => run_block fr until rest
  | CallTimer :: rest =>
      match run_block fr now rest with
      | (log, end_) => ((now, timer_call fr now) :: log, end_)
      end
  end.

(** The whole [with] statement, entered when the clock reads [now]. *)
Definition elapsed_timer (now : Time) (body : list block_step)
  : list (Time * Time) * timer_frame :=
  match run_block (timer_enter now) now body with
  | (log, end_) => (log, timer_exit (timer_enter now) end_)
  end.

End ElapsedTimer.

(** A clock that never runs backwards, on integer readings. *)
Fixpoint monotone_from (now : Z) (body : list (@block_step Z)) : Prop :=
  match body with
  | [] => True
  | Wait until :: rest => (now ≤ until)%Z ∧ monotone_from until rest
  | CallTimer :: rest => monotone_from now rest
  end.

(** ** Reading a trace *)

(** Calls that touch the file system. *)
Definition is_fs_call (ev : Event) : bool :=
  match ev with
  | CallIsdir _ _ | CallMakedirs _ _ | CallIsfile _ _ | CallLoadWeights _ _ _ => true
  | _ => false
  end.

Definition is_makedirs_call (ev : Event) : bool :=
  match ev with
  | CallMakedirs _ _ => true
  | _ => false
  end.

Definition is_load_call (ev : Event) : bool :=
  match ev with
  | CallLoadWeights _ _ _ => true
  | _ => false
  end.

Definition is_fit_call (ev : Event) : bool :=
  match ev with
  | CallFit _ _ _ _ _ => true
  | _ => false
  end.


Definition warning_text (ev : Event) : option string :=
  match ev with
  | CallWarn msg => Some msg
  | _ => None
  end.

Definition warned (tr : list Event) : list string := omap warning_text tr.

(** The exception a call ended with, for the calls that can fail. *)
Definition event_exception (ev : Event) : option PyExc :=
  match ev with
  | CallMakedirs _ (Raised e) => Some e
  | CallFit _ _ _ (Raised e) _ => Some e
  | CallLoadWeights _ _ (Raised e) => Some e
  | _ => None
  end.

(** ** A framework to run examples against *)

Definition best_weights : Weights := WeightsOf [1].
Definition last_weights : Weights := WeightsOf [2].

(** A metric is reported when it is the training loss, or the validation
    loss of a run that has validation data. *)
Definition metric_reported (args : FitCall) (monitor : string) : bool :=
  bool_decide (monitor = "loss")
  || (bool_decide (monitor = "val_loss")
      && bool_decide (is_Some (fit_validation_data args))).

Definition run_hook (args : FitCall) (cb : Callback) (w : World) : World :=
  match cb with
  | ModelCheckpoint filepath monitor _ _ =>
      if metric_reported args monitor
      then set_fs (<[filepath := RegularFile (Hdf5Weights best_weights)]> (fs w)) w
      else w
  | UserCallback _ => w
  end.

(** Training that succeeds: each checkpoint hook whose metric is reported
    saves the best parameters, the model ends with those of the last epoch,
    and a verbose run prints its own progress. *)
Definition sample_fit (model : nat) (args : FitCall) (w : World)
  : outcome History * World :=
  let w1 := foldl (λ acc cb, run_hook args cb acc) w (deref w (fit_callbacks args)) in
  let w2 := set_weights (<[model := last_weights]> (weights w1)) w1 in
  let w3 := if truthy (fit_verbose args)
            then set_stdout (stdout w2 ++ ["Epoch 1/1"]) w2
            else w2 in
  (Ok (HistoryOf [3; 1; 2]), w3).

(** Training that fails. *)
Definition failing_fit (model : nat) (args : FitCall) (w : World)
  : outcome History * World :=
  (Raised (BackendError 1), w).

Definition empty_world : World := mkWorld ∅ true ∅ ∅ [] [].

(** The process after the module has been imported. *)
Definition fresh_world : World := def_train empty_world.

Definition sample_data : gmap string (list ndarray) :=
  <["train" := [Ndarray [1; 2]; Ndarray [0; 1]]]>
    (<["test" := [Ndarray [3]; Ndarray [1]]]> ∅).

Definition sample_data_valid : gmap string (list ndarray) :=
  <["valid" := [Ndarray [4]; Ndarray [0]]]> sample_data.

Definition with_checkpoint (name : string) (o : TrainArgs) : TrainArgs :=
  mkTrainArgs (nb_epoch o) (batch_size o) (callbacks o) (Some name)
              (checkpoint_monitor o) (verbose o) (extra_fit_kwargs o).


Definition with_callbacks (ref : nat) (o : TrainArgs) : TrainArgs :=
  mkTrainArgs (nb_epoch o) (batch_size o) ref (checkpoint o)
              (checkpoint_monitor o) (verbose o) (extra_fit_kwargs o).

(** Runs used as examples below.  Model 7 is trained with the checkpoint
    name ["m1"]: once without validation data, once with it, once silently;
    and once more, with every default, after the first of these. *)
Definition opts_m1 : TrainArgs := with_checkpoint "m1" train_defaults.

Definition run_m1 : list Event * outcome History * World :=
  train sample_fit 7 sample_data opts_m1 fresh_world.

Definition run_m1_valid : list Event * outcome History * World :=
  train sample_fit 7 sample_data_valid opts_m1 fresh_world.


Definition run_plain : list Event * outcome History * World :=
  train sample_fit 7 sample_data train_defaults fresh_world.

Definition run_again : list Event * outcome History * World :=
  train sample_fit 7 sample_data opts_m1 (world_of run_m1).

Definition run_default_after : list Event * outcome History * World :=
  train sample_fit 7 sample_data train_defaults (world_of run_m1).

Definition run_failing : list Event * outcome History * World :=
  train failing_fit 7 sample_data opts_m1 fresh_world.

(** A caller with a list of its own, at reference 5. *)
Definition callers_world : World :=
  set_heap (<[5%nat := [UserCallback 1]]> (heap fresh_world)) fresh_world.

Definition run_callers_list : list Event * outcome History * World :=
  train sample_fit 7 sample_data (with_callbacks 5 opts_m1) callers_world.

(** What [fit] is entered with in these runs, and what it gives back. *)
Definition sample_xy : ndarray * ndarray * option (list ndarray) :=
  (Ndarray [1; 2], Ndarray [0; 1], None).

Definition sample_xyv : ndarray * ndarray * option (list ndarray) :=
  (Ndarray [1; 2], Ndarray [0; 1], Some [Ndarray [4]; Ndarray [0]]).

Definition entered (o : TrainArgs) (w : World) : World := world_of (prepare o w).

Definition left_by (fit : nat → FitCall → World → outcome History * World)
    (o : TrainArgs) (xyv : ndarray * ndarray * option (list ndarray))
    (w : World) : World :=
  (fit 7%nat (fit_args o xyv) (entered o w)).2.

Definition sample_history : History := HistoryOf [3; 1; 2].

(** The lists [fit] was handed, read at the moment of each call. *)
Definition callbacks_seen_by_fit (tr : list Event) : list (list Callback) :=
  omap (λ ev, match ev with
              | CallFit _ args before _ _ => Some (deref before (fit_callbacks args))
              | _ => None
              end) tr.

(** * Proofs *)

(** Unfolding the monad, the blocks and the calls, and splitting on every
    test a run makes. *)
Ltac py_unfold :=
  unfold pass, raise, mbind, mret, Py_bind, Py_ret, py_bind, py_ret in *.

Ltac py_exec :=
  unfold prepare, finish, make_checkpoints_dir, extend_callbacks, say_training,
    say_done, reload_best, os_path_isdir, os_makedirs, makedirs_step,
    os_path_isfile, model_load_weights, load_weights_step, warnings_warn,
    sys_stdout_write, sys_stdout_flush, list_iadd in *;
  py_unfold.

Ltac py_cases := repeat (case_match; simplify_eq/=).

Section TrainProperties.

Variable keras_fit : nat → FitCall → World → outcome History * World.

(** ** Laws of the monad, pointwise *)

Lemma py_bind_inv {A B : Type} (m : Py A) (f : A → Py B) (w : World) tr res w' :
  (m ≫= f) w = (tr, res, w') →
  (∃ t1 a w1 t2, m w = (t1, Ok a, w1) ∧ f a w1 = (t2, res, w') ∧ tr = t1 ++ t2)
  ∨ (∃ e, m w = (tr, Raised e, w') ∧ res = Raised e).
Proof.
  py_unfold. destruct (m w) as [[t1 [a|e]] w1].
  - destruct (f a w1) as [[t2 r] w2] eqn:Hf. intros [= <- <- <-].
    left. by exists t1, a, w1, t2.
  - intros [= <- <- <-]. right. by exists e.
Qed.

Lemma py_ret_bind {A B : Type} (a : A) (f : A → Py B) (w : World) :
  (mret a ≫= f) w = f a w.
Proof. py_unfold. by destruct (f a w) as [[t r] w']. Qed.

Lemma py_bind_assoc {A B C : Type} (m : Py A) (f : A → Py B) (g : B → Py C)
    (w : World) :
  ((m ≫= f) ≫= g) w = (m ≫= λ a, f a ≫= g) w.
Proof.
  py_unfold. destruct (m w) as [[t1 [a|e]] w1]; [|done].
  destruct (f a w1) as [[t2 [b|e]] w2]; [|done].
  destruct (g b w2) as [[t3 r] w3]. by rewrite app_assoc.
Qed.

Lemma py_bind_ext {A B : Type} (m : Py A) (f g : A → Py B) (w : World) :
  (∀ a w', f a w' = g a w') → (m ≫= f) w = (m ≫= g) w.
Proof.
  intros Hfg. py_unfold. destruct (m w) as [[t1 [a|e]] w1]; [|done].
  by rewrite Hfg.
Qed.

Lemma train_blocks model data o w :
  train keras_fit model data o w =
  (xyv ← bind_dataset data;
   prepare o;;
   history ← model_fit keras_fit model xyv.1.1 xyv.1.2 xyv.2 (batch_size o) (nb_epoch o)
                       (callbacks o) (verbose o) (extra_fit_kwargs o);
   finish model o history) w.
Proof.
  unfold train, bind_dataset.
  rewrite ?py_bind_assoc. apply py_bind_ext. intros v1 w1.
  rewrite ?py_bind_assoc. apply py_bind_ext. intros [X_train y_train] w2.
  rewrite ?py_bind_assoc. apply py_bind_ext. intros v2 w3.
  rewrite ?py_bind_assoc. apply py_bind_ext. intros [X_test y_test] w4.
  rewrite py_ret_bind. unfold prepare, finish. cbn [fst snd].
  rewrite py_bind_assoc. apply py_bind_ext. intros _ w5.
  rewrite py_bind_assoc. apply py_bind_ext. intros _ w6.
  reflexivity.
Qed.

(** ** The shape of a run *)

(** Every run of [train] is of one of five kinds, by how far it got. *)
Inductive TrainRun (model : nat) (data : gmap string (list ndarray))
    (o : TrainArgs) (w : World) : list Event → outcome History → World → Prop :=
| RunDatasetError e :
    bind_dataset data w = ([], Raised e, w) →
    TrainRun model data o w [] (Raised e) w
| RunPrepareError xyv t e w0 :
    bind_dataset data w = ([], Ok xyv, w) →
    prepare o w = (t, Raised e, w0) →
    TrainRun model data o w t (Raised e) w0
| RunDuplicateKeyword xyv t w0 k :
    bind_dataset data w = ([], Ok xyv, w) →
    prepare o w = (t, Ok tt, w0) →
    duplicate_keyword (extra_fit_kwargs o) = Some k →
    TrainRun model data o w t
      (Raised (TypeError ("fit() got multiple values for keyword argument " +:+ k)))
      w0
| RunFitError xyv t w0 e w2 :
    bind_dataset data w = ([], Ok xyv, w) →
    prepare o w = (t, Ok tt, w0) →
    duplicate_keyword (extra_fit_kwargs o) = None →
    keras_fit model (fit_args o xyv) w0 = (Raised e, w2) →
    TrainRun model data o w
      (t ++ [CallFit model (fit_args o xyv) w0 (Raised e) w2]) (Raised e) w2
| RunFitReturned xyv t w0 h w2 t2 res w1 :
    bind_dataset data w = ([], Ok xyv, w) →
    prepare o w = (t, Ok tt, w0) →
    duplicate_keyword (extra_fit_kwargs o) = None →
    keras_fit model (fit_args o xyv) w0 = (Ok h, w2) →
    finish model o h w2 = (t2, res, w1) →
    TrainRun model data o w
      (t ++ CallFit model (fit_args o xyv) w0 (Ok h) w2 :: t2) res w1.

Lemma bind_dataset_pure data w t r w' :
  bind_dataset data w = (t, r, w') → t = [] ∧ w' = w.
Proof.
  unfold bind_dataset, dict_getitem, unpack2. py_unfold.
  intros H. repeat (case_match; simplify_eq/=); done.
Qed.

Lemma model_fit_inv model x y v bs ne cb vb kw w tr res w' :
  model_fit keras_fit model x y v bs ne cb vb kw w = (tr, res, w') →
  (∃ k, duplicate_keyword kw = Some k ∧ tr = [] ∧ w' = w ∧
        res = Raised (TypeError ("fit() got multiple values for keyword argument " +:+ k)))
  ∨ (duplicate_keyword kw = None ∧
     keras_fit model (mkFitCall x y v bs ne cb vb kw) w = (res, w') ∧
     tr = [CallFit model (mkFitCall x y v bs ne cb vb kw) w res w']).
Proof.
  unfold model_fit, raise. destruct (duplicate_keyword kw) as [k|].
  - intros [= <- <- <-]. left. by exists k.
  - destruct (keras_fit _ _ _) as [r w2]. intros [= <- <- <-]. by right.
Qed.

Lemma train_run model data o w tr res w1 :
  train keras_fit model data o w = (tr, res, w1) → TrainRun model data o w tr res w1.
Proof.
  rewrite train_blocks. intros H.
  apply py_bind_inv in H as [(t0 & xyv & w0 & t' & Hd & H & ->)|(e & Hd & ->)];
    destruct (bind_dataset_pure _ _ _ _ _ Hd) as [-> ->]; [|by constructor].
  apply py_bind_inv in H as [(t & [] & wp & t'' & Hp & H & ->)|(e & Hp & ->)];
    [|by econstructor].
  apply py_bind_inv in H as [(t1 & h & w2 & t2 & Hf & H & ->)|(e & Hf & ->)];
    apply model_fit_inv in Hf as [(k & Hk & -> & -> & E)|(Hk & Hf & ->)];
    simplify_eq/=; rewrite ?app_nil_r; by econstructor.
Qed.

(** ** Facts about the blocks *)

Lemma bind_dataset_ok data w xyv :
  bind_dataset data w = ([], Ok xyv, w) →
  ∃ xt yt, data !! "train" = Some [xyv.1.1; xyv.1.2]
           ∧ data !! "test" = Some [xt; yt]
           ∧ xyv.2 = data !! "valid".
Proof.
  unfold bind_dataset, dict_getitem, unpack2. py_unfold.
  intros H. py_cases. eauto.
Qed.

Lemma is_dir_created (w : World) (path : string) :
  is_dir (set_fs (<[path := Directory]> (fs w)) w) path = true.
Proof. unfold is_dir. cbn. by rewrite lookup_insert_eq. Qed.

Lemma prepare_no_fit o w t r w0 :
  prepare o w = (t, r, w0) → Forall (λ ev, is_fit_call ev = false) t.
Proof. intros H. py_exec. py_cases; repeat constructor. Qed.



Lemma prepare_checkpoint o w t w0 name :
  checkpoint o = Some name →
  prepare o w = (t, Ok tt, w0) →
  is_dir w0 "checkpoints/" = true
  ∧ deref w0 (callbacks o) =
    deref w (callbacks o)
    ++ [ModelCheckpoint (checkpoint_file name) (checkpoint_monitor o) true true].
Proof.
  intros Hc H. py_exec. rewrite Hc in H.
  py_cases; (split; [|unfold deref; cbn; by rewrite lookup_insert_eq]).
  all: first [ apply is_dir_created | by apply negb_false_iff ].
Qed.

Lemma prepare_dir_present o w t r w0 :
  is_dir w "checkpoints/" = true →
  prepare o w = (t, r, w0) →
  r = Ok tt ∧ Forall (λ ev, is_makedirs_call ev = false) t.
Proof.
  intros Hd H. py_exec.
  py_cases; try (rewrite Hd in *; done); split; try done; repeat constructor.
Qed.

Lemma prepare_no_checkpoint o w t r w0 :
  checkpoint o = None →
  prepare o w = (t, r, w0) →
  r = Ok tt ∧ Forall (λ ev, is_fs_call ev = false) t
  ∧ fs w0 = fs w ∧ weights w0 = weights w ∧ heap w0 = heap w.
Proof.
  intros Hc H. py_exec. rewrite Hc in H.
  py_cases; repeat split; repeat constructor.
Qed.

Lemma prepare_quiet o w t r w0 :
  prepare o w = (t, r, w0) →
  warned t = [] ∧ Forall (λ ev, is_load_call ev = false) t.
Proof. intros H. py_exec. py_cases; split; repeat constructor. Qed.

Lemma finish_no_fit model o h w t r w1 :
  finish model o h w = (t, r, w1) → Forall (λ ev, is_fit_call ev = false) t.
Proof. intros H. py_exec. py_cases; repeat constructor. Qed.


Lemma finish_no_checkpoint model o h w t r w1 :
  checkpoint o = None →
  finish model o h w = (t, r, w1) →
  r = Ok h ∧ Forall (λ ev, is_fs_call ev = false) t
  ∧ fs w1 = fs w ∧ weights w1 = weights w ∧ heap w1 = heap w
  ∧ warnings_log w1 = warnings_log w.
Proof.
  intros Hc H. py_exec. rewrite Hc in H.
  py_cases; repeat split; repeat constructor.
Qed.

Lemma finish_file_present model o h w t r w1 name :
  checkpoint o = Some name →
  is_file w (checkpoint_file name) = true →
  finish model o h w = (t, r, w1) →
  ∃ t' lr,
    t = t' ++ [CallIsfile (checkpoint_file name) true;
               CallLoadWeights model (checkpoint_file name) lr]
    ∧ Forall (λ ev, is_fs_call ev = false) t'
    ∧ load_weights_step model (checkpoint_file name) (world_of (say_done o w))
      = (lr, w1)
    ∧ r = match lr with Ok _ => Ok h | Raised e => Raised e end
    ∧ warned t = [].
Proof.
  intros Hc Hf H. py_exec. rewrite Hc in H.
  unfold is_file in *.
  py_cases.
  all: try (eexists [_], _; repeat split; repeat constructor; done).
  all: try (eexists [], _; repeat split; repeat constructor; done).
Qed.

Lemma finish_file_absent model o h w t r w1 name :
  checkpoint o = Some name →
  is_file w (checkpoint_file name) = false →
  finish model o h w = (t, r, w1) →
  r = Ok h
  ∧ warned t = [no_checkpoints_warning]
  ∧ Forall (λ ev, is_load_call ev = false) t
  ∧ warnings_log w1 = warnings_log w ++ [no_checkpoints_warning]
  ∧ weights w1 = weights w ∧ fs w1 = fs w.
Proof.
  intros Hc Hf H. py_exec. rewrite Hc in H. unfold is_file in *.
  py_cases; repeat split; repeat constructor.
Qed.

(** ** What every call of the module preserves *)

(** A computation propagates exceptions when a failing call is the last
    thing it does and its exception is the computation's own. *)
Definition propagates {A : Type} (m : Py A) : Prop :=
  ∀ w tr res w' ev e,
    m w = (tr, res, w') → ev ∈ tr → event_exception ev = Some e →
    res = Raised e ∧ ∃ tr', tr = tr' ++ [ev].

Lemma propagates_bind {A B : Type} (m : Py A) (f : A → Py B) :
  propagates m → (∀ a, propagates (f a)) → propagates (m ≫= f).
Proof.
  intros Hm Hf w tr res w' ev e H Hin He.
  apply py_bind_inv in H as [(t1 & a & w1 & t2 & H1 & H2 & ->)|(e' & H1 & ->)].
  - apply elem_of_app in Hin as [Hin|Hin].
    + by destruct (Hm _ _ _ _ _ _ H1 Hin He) as [? _].
    + destruct (Hf a _ _ _ _ _ _ H2 Hin He) as [-> [t' ->]].
      split; [done|]. exists (t1 ++ t'). by rewrite app_assoc.
  - destruct (Hm _ _ _ _ _ _ H1 Hin He) as [[= ->] Ht]. by split.
Qed.

Lemma propagates_quiet {A : Type} (m : Py A) :
  (∀ w, trace_of (m w) = []) → propagates m.
Proof.
  intros Hq w tr res w' ev e H Hin _. specialize (Hq w). rewrite H in Hq.
  cbn in Hq. subst. by apply elem_of_nil in Hin.
Qed.

Lemma propagates_single {A : Type} (m : Py A) :
  (∀ w, ∃ ev, trace_of (m w) = [ev]
              ∧ ∀ e, event_exception ev = Some e → result_of (m w) = Raised e) →
  propagates m.
Proof.
  intros Hs w tr res w' ev e H Hin He. destruct (Hs w) as (ev' & Ht & Hr).
  rewrite H in Ht, Hr. cbn in Ht, Hr. subst.
  apply list_elem_of_singleton in Hin as ->. split; [auto|]. by exists [].
Qed.

Lemma propagates_ret {A : Type} (a : A) : propagates (mret a : Py A).
Proof. by apply propagates_quiet. Qed.

Lemma propagates_pass : propagates pass.
Proof. by apply propagates_quiet. Qed.

Lemma propagates_raise {A : Type} (e : PyExc) : propagates (raise e : Py A).
Proof. by apply propagates_quiet. Qed.

Lemma propagates_dict_getitem {V : Type} (d : gmap string V) (k : string) :
  propagates (dict_getitem d k).
Proof. apply propagates_quiet. intros w. unfold dict_getitem. by destruct (d !! k). Qed.

Lemma propagates_unpack2 {V : Type} (v : list V) : propagates (unpack2 v).
Proof. apply propagates_quiet. intros w. by destruct v as [|? [|? [|? ?]]]. Qed.

Lemma propagates_list_iadd ref items : propagates (list_iadd ref items).
Proof. by apply propagates_quiet. Qed.

Lemma propagates_os_path_isdir path : propagates (os_path_isdir path).
Proof. apply propagates_single. intros w. by eexists. Qed.

Lemma propagates_os_path_isfile path : propagates (os_path_isfile path).
Proof. apply propagates_single. intros w. by eexists. Qed.

Lemma propagates_sys_stdout_write text : propagates (sys_stdout_write text).
Proof. apply propagates_single. intros w. by eexists. Qed.

Lemma propagates_sys_stdout_flush : propagates sys_stdout_flush.
Proof. apply propagates_single. intros w. by eexists. Qed.

Lemma propagates_warnings_warn msg : propagates (warnings_warn msg).
Proof. apply propagates_single. intros w. by eexists. Qed.

Lemma propagates_os_makedirs path : propagates (os_makedirs path).
Proof.
  apply propagates_single. intros w. unfold os_makedirs.
  destruct (makedirs_step path w) as [[[]|e] w']; eexists; split; try done;
    cbn; congruence.
Qed.

Lemma propagates_model_load_weights model path :
  propagates (model_load_weights model path).
Proof.
  apply propagates_single. intros w. unfold model_load_weights.
  destruct (load_weights_step model path w) as [[[]|e] w']; eexists; split;
    try done; cbn; congruence.
Qed.

Lemma propagates_model_fit model x y v bs ne cb vb kw :
  propagates (model_fit keras_fit model x y v bs ne cb vb kw).
Proof.
  unfold model_fit. destruct (duplicate_keyword kw); [apply propagates_raise|].
  apply propagates_single. intros w.
  destruct (keras_fit _ _ w) as [[h|e] w']; eexists; split; try done;
    cbn; congruence.
Qed.

Create HintDb propagation.
#[local] Hint Resolve propagates_ret propagates_pass propagates_raise
  propagates_dict_getitem propagates_unpack2 propagates_list_iadd
  propagates_os_path_isdir propagates_os_path_isfile
  propagates_sys_stdout_write propagates_sys_stdout_flush
  propagates_warnings_warn propagates_os_makedirs
  propagates_model_load_weights propagates_model_fit : propagation.

(** [train] is sequencing and branching only: nothing in it handles an
    exception. *)
Lemma train_propagates model data o : propagates (train keras_fit model data o).
Proof.
  unfold train.
  repeat first
    [ apply propagates_bind; [|intros ?]
    | match goal with
      | |- propagates (match ?x with _ => _ end) => destruct x
      end ];
  auto with propagation.
Qed.

(** The call to the framework, found in a trace, fixes the rest of the run. *)
Lemma fit_call_inv model data o w tr res w1 m a w0 r w2 :
  train keras_fit model data o w = (tr, res, w1) →
  CallFit m a w0 r w2 ∈ tr →
  ∃ xyv t t2,
    bind_dataset data w = ([], Ok xyv, w)
    ∧ prepare o w = (t, Ok tt, w0)
    ∧ m = model ∧ a = fit_args o xyv
    ∧ keras_fit model a w0 = (r, w2)
    ∧ tr = t ++ CallFit m a w0 r w2 :: t2
    ∧ match r with
      | Ok h => finish model o h w2 = (t2, res, w1)
      | Raised e => t2 = [] ∧ res = Raised e ∧ w1 = w2
      end.
Proof.
  intros H Hin. apply train_run in H.
  assert (Hnot : ∀ l, Forall (λ ev, is_fit_call ev = false) l →
                      CallFit m a w0 r w2 ∈ l → False).
  { intros l Hl Hm. rewrite Forall_forall in Hl. by apply Hl in Hm. }
  destruct H as [e Hd|xyv t e wp Hd Hp|xyv t wp k Hd Hp Hk
                |xyv t wp e wf Hd Hp Hk Hf|xyv t wp h wf t2 res w1 Hd Hp Hk Hf Hfin].
  - by apply elem_of_nil in Hin.
  - destruct (Hnot _ (prepare_no_fit _ _ _ _ _ Hp) Hin).
  - destruct (Hnot _ (prepare_no_fit _ _ _ _ _ Hp) Hin).
  - apply elem_of_app in Hin as [Hin|Hin];
      [destruct (Hnot _ (prepare_no_fit _ _ _ _ _ Hp) Hin)|].
    apply list_elem_of_singleton in Hin. simplify_eq.
    exists xyv, t, []. by repeat split.
  - apply elem_of_app in Hin as [Hin|Hin];
      [destruct (Hnot _ (prepare_no_fit _ _ _ _ _ Hp) Hin)|].
    apply elem_of_cons in Hin as [Hin|Hin];
      [|destruct (Hnot _ (finish_no_fit _ _ _ _ _ _ _ Hfin) Hin)].
    simplify_eq. exists xyv, t, t2. by repeat split.
Qed.


Lemma warned_app (t1 t2 : list Event) : warned (t1 ++ t2) = warned t1 ++ warned t2.
Proof. apply omap_app. Qed.

(** ** Properties of [train] *)

(** C1, amended. In a call with [checkpoint] set, when [fit] has returned
    and a file sits at ['checkpoints/<checkpoint>.h5'], the last thing
    [train] does is to call [model.load_weights] on that file, the call
    ends as that load ends, and when the file holds saved parameters the
    history is returned and the model's parameters are those of the file:
    whatever the file holds, saved during this run or left there by an
    earlier one. *)
Theorem train_reloads_saved_checkpoint model data o name w tr res w1 m a w0 h w2 :
  checkpoint o = Some name →
  train keras_fit model data o w = (tr, res, w1) →
  CallFit m a w0 (Ok h) w2 ∈ tr →
  is_file w2 ("checkpoints/" +:+ name +:+ ".h5") = true →
  (∃ tr' lr,
     tr = tr' ++ [CallLoadWeights model ("checkpoints/" +:+ name +:+ ".h5") lr]
     ∧ load_weights_step model ("checkpoints/" +:+ name +:+ ".h5")
         (world_of (say_done o w2)) = (lr, w1)
     ∧ res = match lr with Ok _ => Ok h | Raised e => Raised e end)
  ∧ (∀ p, fs w2 !! ("checkpoints/" +:+ name +:+ ".h5")
          = Some (RegularFile (Hdf5Weights p)) →
          res = Ok h ∧ weights w1 !! m = Some p).
Proof.
  intros Hc H Hin Hfile.
  destruct (fit_call_inv _ _ _ _ _ _ _ _ _ _ _ _ H Hin)
    as (xyv & t & t2 & _ & _ & -> & _ & _ & -> & Hfin).
  destruct (finish_file_present _ _ _ _ _ _ _ _ Hc Hfile Hfin)
    as (t' & lr & -> & _ & Hload & -> & _).
  split.
  - exists (t ++ CallFit model a w0 (Ok h) w2
              :: t' ++ [CallIsfile (checkpoint_file name) true]), lr.
    split; [|done]. by rewrite <- !app_assoc, <- app_comm_cons, <- app_assoc.
  - intros p Hp. unfold load_weights_step in Hload.
    assert (Hfs : fs (world_of (say_done o w2)) = fs w2).
    { unfold say_done. by destruct (truthy (verbose o)). }
    unfold checkpoint_file in Hload. rewrite Hfs, Hp in Hload.
    simplify_eq/=. by rewrite lookup_insert_eq.
Qed.

(** C2. In a call with [checkpoint] set, when [fit] has returned and no file
    sits at the derived path, [train] warns once, never calls
    [load_weights], and returns the history of [fit]. *)
Theorem train_warns_when_nothing_saved model data o name w tr res w1 m a w0 h w2 :
  checkpoint o = Some name →
  train keras_fit model data o w = (tr, res, w1) →
  CallFit m a w0 (Ok h) w2 ∈ tr →
  is_file w2 ("checkpoints/" +:+ name +:+ ".h5") = false →
  res = Ok h
  ∧ warned tr = [no_checkpoints_warning]
  ∧ Forall (λ ev, is_load_call ev = false) tr
  ∧ warnings_log w1 = warnings_log w2 ++ [no_checkpoints_warning]
  ∧ weights w1 = weights w2.
Proof.
  intros Hc H Hin Hfile.
  destruct (fit_call_inv _ _ _ _ _ _ _ _ _ _ _ _ H Hin)
    as (xyv & t & t2 & _ & Hp & -> & _ & _ & -> & Hfin).
  destruct (finish_file_absent _ _ _ _ _ _ _ _ Hc Hfile Hfin)
    as (-> & Hw & Hl & Hlog & Hwt & _).
  repeat split; try done.
  - rewrite warned_app.
    replace (warned (CallFit model a w0 (Ok h) w2 :: t2)) with (warned t2) by done.
    rewrite Hw. by destruct (prepare_quiet _ _ _ _ _ Hp) as [-> _].
  - apply Forall_app. split; [|by constructor].
    by destruct (prepare_quiet _ _ _ _ _ Hp) as [_ ?].
Qed.


Lemma bind_dataset_bound data w x y xt yt :
  data !! "train" = Some [x; y] →
  data !! "test" = Some [xt; yt] →
  bind_dataset data w = ([], Ok (x, y, data !! "valid"), w).
Proof.
  intros Htrain Htest. unfold bind_dataset, dict_getitem.
  by rewrite Htrain, Htest.
Qed.

(** C4. In a call with [checkpoint] left at [None], [train] makes no call
    that touches the file system, and the file system changes only inside
    [fit].  The call ends as [fit] ended: on a dataset with its two pairs
    and keywords given once, [fit] is called, and what it returned or
    raised is the result of [train]; and whenever [train] returns a
    history, it is the one a call of [fit] returned. *)
Theorem train_without_checkpoint model data o w tr res w1 :
  checkpoint o = None →
  train keras_fit model data o w = (tr, res, w1) →
  Forall (λ ev, is_fs_call ev = false) tr
  ∧ (∀ m a w0 r w2,
       CallFit m a w0 r w2 ∈ tr → res = r ∧ fs w0 = fs w ∧ fs w1 = fs w2)
  ∧ (∀ x y xt yt,
       data !! "train" = Some [x; y] →
       data !! "test" = Some [xt; yt] →
       duplicate_keyword (extra_fit_kwargs o) = None →
       ∃ w0 w2,
         keras_fit model (fit_args o (x, y, data !! "valid")) w0 = (res, w2)
         ∧ CallFit model (fit_args o (x, y, data !! "valid")) w0 res w2 ∈ tr)
  ∧ (∀ h, res = Ok h →
       ∃ a w0 w2,
         keras_fit model a w0 = (Ok h, w2)
         ∧ CallFit model a w0 (Ok h) w2 ∈ tr).
Proof.
  intros Hc H. split; [|split; [|split]].
  - apply train_run in H.
    destruct H as [e Hd|xyv t e wp Hd Hp|xyv t wp k Hd Hp Hk
                  |xyv t wp e wf Hd Hp Hk Hf|xyv t wp h wf t2 res w1 Hd Hp Hk Hf Hfin];
      try constructor;
      destruct (prepare_no_checkpoint _ _ _ _ _ Hc Hp) as (_ & Ht & _); try done.
    + apply Forall_app. split; [done|]. by repeat constructor.
    + apply Forall_app. split; [done|]. constructor; [done|].
      by destruct (finish_no_checkpoint _ _ _ _ _ _ _ Hc Hfin) as (_ & ? & _).
  - intros m a w0 r w2 Hin.
    destruct (fit_call_inv _ _ _ _ _ _ _ _ _ _ _ _ H Hin)
      as (xyv & t & t2 & _ & Hp & _ & _ & _ & _ & Hfin).
    destruct (prepare_no_checkpoint _ _ _ _ _ Hc Hp) as (_ & _ & Hfs & _).
    destruct r as [h|e].
    + by destruct (finish_no_checkpoint _ _ _ _ _ _ _ Hc Hfin) as (-> & _ & -> & _).
    + by destruct Hfin as (_ & -> & ->).
  - intros x y xt yt Htrain Htest Hkw. apply train_run in H.
    pose proof (bind_dataset_bound data w x y xt yt Htrain Htest) as Hb.
    destruct H as [e Hd|xyv t e wp Hd Hp|xyv t wp k Hd Hp Hk
                  |xyv t wp e wf Hd Hp Hk Hf|xyv t wp h wf t2 res w1 Hd Hp Hk Hf Hfin];
      try congruence.
    + by destruct (prepare_no_checkpoint _ _ _ _ _ Hc Hp) as (? & _).
    + assert (xyv = (x, y, data !! "valid")) as -> by congruence.
      exists wp, wf. split; [done|]. apply elem_of_app. right. constructor.
    + assert (xyv = (x, y, data !! "valid")) as -> by congruence.
      destruct (finish_no_checkpoint _ _ _ _ _ _ _ Hc Hfin) as (-> & _).
      exists wp, wf. split; [done|]. apply elem_of_app. right. constructor.
  - intros h' ->. apply train_run in H.
    inversion H as [| | | |xyv t wp h wf t2 res' w1' Hd Hp Hk Hf Hfin]; subst.
    destruct (finish_no_checkpoint _ _ _ _ _ _ _ Hc Hfin) as ([= ->] & _).
    exists (fit_args o xyv), wp, wf. split; [done|].
    apply elem_of_app. right. constructor.
Qed.

Lemma finish_no_makedirs model o h w t r w1 :
  finish model o h w = (t, r, w1) → Forall (λ ev, is_makedirs_call ev = false) t.
Proof. intros H. py_exec. py_cases; repeat constructor. Qed.

(** C5. In a call with [checkpoint] set, ['checkpoints/'] is a directory
    when [fit] is entered; and a call entered when the directory is there
    already, as a second call in sequence is, never calls [os.makedirs]. *)
Theorem train_checkpoints_directory model data o name w tr res w1 :
  checkpoint o = Some name →
  train keras_fit model data o w = (tr, res, w1) →
  (∀ m a w0 r w2, CallFit m a w0 r w2 ∈ tr → is_dir w0 "checkpoints/" = true)
  ∧ (is_dir w "checkpoints/" = true →
     Forall (λ ev, is_makedirs_call ev = false) tr).
Proof.
  intros Hc H. split.
  - intros m a w0 r w2 Hin.
    destruct (fit_call_inv _ _ _ _ _ _ _ _ _ _ _ _ H Hin)
      as (xyv & t & t2 & _ & Hp & _).
    by destruct (prepare_checkpoint _ _ _ _ _ Hc Hp) as [? _].
  - intros Hdir. apply train_run in H.
    destruct H as [e Hd|xyv t e wp Hd Hp|xyv t wp k Hd Hp Hk
                  |xyv t wp e wf Hd Hp Hk Hf|xyv t wp h wf t2 res w1 Hd Hp Hk Hf Hfin];
      try constructor;
      destruct (prepare_dir_present _ _ _ _ _ Hdir Hp) as [_ Ht]; try done.
    + apply Forall_app. split; [done|]. by repeat constructor.
    + apply Forall_app. split; [done|]. constructor; [done|].
      by apply finish_no_makedirs in Hfin.
Qed.


(** C8. Whatever [os.makedirs], [fit] or [load_weights] raises is what the
    call of [train] raises, and the failing call is the last one [train]
    makes. *)
Theorem train_propagates_exceptions model data o w tr res w1 ev e :
  train keras_fit model data o w = (tr, res, w1) →
  ev ∈ tr →
  event_exception ev = Some e →
  res = Raised e ∧ ∃ tr', tr = tr' ++ [ev].
Proof. apply train_propagates. Qed.

(** X1. What [fit] is called with: the model [train] was given, the pair
    under ['train'], the entry under ['valid'] when there is one and [None]
    otherwise, and the caller's batch size, number of epochs, verbosity and
    extra keywords as they are. *)
Lemma train_fit_arguments model data o w tr res w1 m a w0 r w2 :
  train keras_fit model data o w = (tr, res, w1) →
  CallFit m a w0 r w2 ∈ tr →
  m = model
  ∧ data !! "train" = Some [fit_x a; fit_y a]
  ∧ fit_validation_data a = data !! "valid"
  ∧ fit_batch_size a = batch_size o
  ∧ fit_nb_epoch a = nb_epoch o
  ∧ fit_verbose a = verbose o
  ∧ fit_kwargs a = extra_fit_kwargs o
  ∧ keras_fit m a w0 = (r, w2).
Proof.
  intros H Hin.
  destruct (fit_call_inv _ _ _ _ _ _ _ _ _ _ _ _ H Hin)
    as (xyv & t & t2 & Hd & _ & -> & -> & Hf & _).
  destruct (bind_dataset_ok _ _ _ Hd) as (xt & yt & Htrain & _ & Hvalid).
  by repeat split.
Qed.

Lemma py_bind_cong {A B : Type} (m1 m2 : Py A) (f : A → Py B) (w : World) :
  m1 w = m2 w → (m1 ≫= f) w = (m2 ≫= f) w.
Proof. py_unfold. by intros ->. Qed.

(** C10. Two datasets that differ only in the pair under ['test'] give the
    same run: the same calls, the same result, the same final state.  A
    dataset without ['test'] makes the call raise [KeyError] before it has
    called anything. *)
Theorem train_ignores_test_pair model o w :
  (∀ d1 d2 x1 y1 x2 y2,
     d1 !! "test" = Some [x1; y1] →
     d2 !! "test" = Some [x2; y2] →
     (∀ k, k ≠ "test" → d1 !! k = d2 !! k) →
     train keras_fit model d1 o w = train keras_fit model d2 o w)
  ∧ (∀ d,
       d !! "test" = None →
       (∀ v, d !! "train" = Some v → length v = 2%nat) →
       ∃ k, train keras_fit model d o w = ([], Raised (KeyError k), w)).
Proof.
  split.
  - intros d1 d2 x1 y1 x2 y2 H1 H2 Hk. rewrite !train_blocks.
    apply py_bind_cong. unfold bind_dataset, dict_getitem.
    by rewrite H1, H2, (Hk "train"), (Hk "valid").
  - intros d Ht Hwf. rewrite train_blocks. unfold bind_dataset, dict_getitem.
    rewrite Ht. destruct (d !! "train") as [v|]; [|by exists "train"].
    specialize (Hwf v eq_refl). destruct v as [|x [|y [|z v]]]; try done.
    by exists "test".
Qed.
End TrainProperties.

(** ** Examples *)

Example run_m1_valid_calls :
  filter (λ ev, is_fit_call ev = false) (trace_of run_m1_valid) =
  [CallIsdir "checkpoints/" false; CallMakedirs "checkpoints/" (Ok tt);
   CallStdoutWrite ("Training..." +:+ newline); CallStdoutFlush;
   CallStdoutWrite ("Done." +:+ newline);
   CallIsfile "checkpoints/m1.h5" true;
   CallLoadWeights 7 "checkpoints/m1.h5" (Ok tt)].
Proof. by vm_compute. Qed.

Example run_m1_valid_weights :
  weights (left_by sample_fit opts_m1 sample_xyv fresh_world) !! 7%nat
  = Some last_weights
  ∧ weights (world_of run_m1_valid) !! 7%nat = Some best_weights.
Proof. split; by vm_compute. Qed.

Example run_m1_stdout :
  stdout (world_of run_m1) =
  ["Training..." +:+ newline; "Epoch 1/1"; "Done." +:+ newline].
Proof. by vm_compute. Qed.

Example makedirs_on_a_file :
  let w := set_fs (<["checkpoints/" := RegularFile Unreadable]> ∅) fresh_world in
  train sample_fit 7 sample_data opts_m1 w =
  ([CallIsdir "checkpoints/" false;
    CallMakedirs "checkpoints/" (Raised (FileExistsError "checkpoints/"))],
   Raised (FileExistsError "checkpoints/"), w).
Proof. by vm_compute. Qed.

Example fit_keyword_given_twice :
  let o := mkTrainArgs 100 128 default_callbacks None "val_loss" 0
                       (<["validation_data" := PyNone]> ∅) in
  train sample_fit 7 sample_data o fresh_world =
  ([], Raised (TypeError
                 "fit() got multiple values for keyword argument validation_data"),
   fresh_world).
Proof. by vm_compute. Qed.

Ltac in_trace :=
  vm_compute; repeat first [apply list_elem_of_here | apply list_elem_of_further].

Ltac run_eq := by vm_compute.

Lemma train_reloads_saved_checkpoint_witness :
  result_of run_m1_valid = Ok sample_history
  ∧ weights (world_of run_m1_valid) !! 7%nat = Some best_weights.
Proof.
  destruct (train_reloads_saved_checkpoint sample_fit 7 sample_data_valid
              opts_m1 "m1" fresh_world (trace_of run_m1_valid)
              (result_of run_m1_valid) (world_of run_m1_valid)
              7 (fit_args opts_m1 sample_xyv) (entered opts_m1 fresh_world)
              sample_history (left_by sample_fit opts_m1 sample_xyv fresh_world))
    as [_ H].
  - reflexivity.
  - run_eq.
  - in_trace.
  - run_eq.
  - apply (H best_weights). run_eq.
Defined.

Lemma train_warns_when_nothing_saved_witness :
  result_of run_m1 = Ok sample_history
  ∧ warned (trace_of run_m1) = [no_checkpoints_warning]
  ∧ Forall (λ ev, is_load_call ev = false) (trace_of run_m1)
  ∧ warnings_log (world_of run_m1) =
    warnings_log (left_by sample_fit opts_m1 sample_xy fresh_world)
    ++ [no_checkpoints_warning]
  ∧ weights (world_of run_m1) =
    weights (left_by sample_fit opts_m1 sample_xy fresh_world).
Proof.
  apply (train_warns_when_nothing_saved sample_fit 7 sample_data opts_m1 "m1"
           fresh_world (trace_of run_m1) (result_of run_m1) (world_of run_m1)
           7 (fit_args opts_m1 sample_xy) (entered opts_m1 fresh_world)).
  - reflexivity.
  - run_eq.
  - in_trace.
  - run_eq.
Defined.


Lemma train_without_checkpoint_witness :
  Forall (λ ev, is_fs_call ev = false) (trace_of run_plain)
  ∧ result_of run_plain = Ok sample_history
  ∧ ∃ w0 w2,
      CallFit 7 (fit_args train_defaults sample_xy) w0 (Ok sample_history) w2
      ∈ trace_of run_plain.
Proof.
  destruct (train_without_checkpoint sample_fit 7 sample_data train_defaults
              fresh_world (trace_of run_plain) (result_of run_plain)
              (world_of run_plain)) as (Hfs & _ & Hcalled & _).
  - reflexivity.
  - run_eq.
  - destruct (Hcalled (Ndarray [1; 2]) (Ndarray [0; 1]) (Ndarray [3]) (Ndarray [1]))
      as (w0 & w2 & Hfit & Hin).
    + reflexivity.
    + reflexivity.
    + reflexivity.
    + assert (Hres : result_of run_plain = Ok sample_history).
      { apply (f_equal fst) in Hfit. symmetry. exact Hfit. }
      split; [exact Hfs|]. split; [exact Hres|].
      exists w0, w2. rewrite Hres in Hin. exact Hin.
Defined.

Lemma train_checkpoints_directory_witness :
  is_dir (entered opts_m1 (world_of run_m1)) "checkpoints/" = true
  ∧ Forall (λ ev, is_makedirs_call ev = false) (trace_of run_again).
Proof.
  destruct (train_checkpoints_directory sample_fit 7 sample_data opts_m1 "m1"
              (world_of run_m1) (trace_of run_again) (result_of run_again)
              (world_of run_again)) as [Hdir Hno].
  - reflexivity.
  - run_eq.
  - split.
    + apply (Hdir 7%nat (fit_args opts_m1 sample_xy)
                  (entered opts_m1 (world_of run_m1)) (Ok sample_history)
                  (left_by sample_fit opts_m1 sample_xy (world_of run_m1))).
      in_trace.
    + apply Hno. run_eq.
Defined.


Lemma train_propagates_exceptions_witness :
  result_of run_failing = Raised (BackendError 1)
  ∧ ∃ tr', trace_of run_failing =
           tr' ++ [CallFit 7 (fit_args opts_m1 sample_xy)
                           (entered opts_m1 fresh_world)
                           (Raised (BackendError 1))
                           (entered opts_m1 fresh_world)].
Proof.
  apply (train_propagates_exceptions failing_fit 7 sample_data opts_m1
           fresh_world (trace_of run_failing) (result_of run_failing)
           (world_of run_failing)).
  - run_eq.
  - in_trace.
  - reflexivity.
Defined.

Lemma train_ignores_test_pair_witness :
  train sample_fit 7 sample_data opts_m1 fresh_world =
  train sample_fit 7 (<["test" := [Ndarray [9; 9]; Ndarray [8]]]> sample_data)
        opts_m1 fresh_world
  ∧ ∃ k, train sample_fit 7 (delete "test" sample_data) opts_m1 fresh_world =
         ([], Raised (KeyError k), fresh_world).
Proof.
  destruct (train_ignores_test_pair sample_fit 7 opts_m1 fresh_world) as [Hsame Habsent].
  split.
  - apply (Hsame sample_data (<["test" := [Ndarray [9; 9]; Ndarray [8]]]> sample_data)
                 (Ndarray [3]) (Ndarray [1]) (Ndarray [9; 9]) (Ndarray [8])).
    + reflexivity.
    + reflexivity.
    + intros k Hk. by rewrite lookup_insert_ne.
  - apply Habsent.
    + reflexivity.
    + intros v Hv. vm_compute in Hv. by injection Hv as <-.
Defined.

(** C6, as the code has it.  After one call with a checkpoint name and the
    default [callbacks], the default list holds that call's hook; the next
    call that relies on the default hands [fit] a list that starts with it.
    A list of the caller's own is extended in the same way. *)
Theorem default_callbacks_accumulate :
  deref fresh_world default_callbacks = []
  ∧ callbacks_seen_by_fit (trace_of run_m1) =
    [[ModelCheckpoint "checkpoints/m1.h5" "val_loss" true true]]
  ∧ deref (world_of run_m1) default_callbacks =
    [ModelCheckpoint "checkpoints/m1.h5" "val_loss" true true]
  ∧ callbacks_seen_by_fit (trace_of run_default_after) =
    [[ModelCheckpoint "checkpoints/m1.h5" "val_loss" true true]]
  ∧ callbacks_seen_by_fit (trace_of run_again) =
    [[ModelCheckpoint "checkpoints/m1.h5" "val_loss" true true;
      ModelCheckpoint "checkpoints/m1.h5" "val_loss" true true]]
  ∧ deref callers_world 5 = [UserCallback 1]
  ∧ deref (world_of run_callers_list) 5 =
    [UserCallback 1; ModelCheckpoint "checkpoints/m1.h5" "val_loss" true true].
Proof. repeat split; by vm_compute. Qed.

(** ** [elapsed_timer] *)

Section ElapsedTimerProperties.

Context {Time : Type} (minus : Time → Time → Time).

Lemma timer_call_running (fr : timer_frame) (now : Time) :
  elapsed fr = ReadsClock → timer_call minus fr now = minus now (start fr).
Proof. unfold timer_call. by intros ->. Qed.

Lemma run_block_reports (fr : timer_frame) (now : Time) (body : list block_step) :
  elapsed fr = ReadsClock →
  Forall (λ entry, entry.2 = minus entry.1 (start fr))
         (run_block minus fr now body).1.
Proof.
  intros Hfr. revert now.
  induction body as [|[until|] rest IH]; intros now; cbn.
  - constructor.
  - apply IH.
  - specialize (IH now). destruct (run_block minus fr now rest) as [log end_].
    constructor; [by apply timer_call_running|exact IH].
Qed.

(** C9. Inside the managed block, a call of the yielded callable while the
    clock reads [now] returns [now] minus the reading taken on entry; so
    does every call a body makes. *)
Theorem elapsed_timer_reports_elapsed (entry_time : Time) (body : list block_step) :
  (∀ now, timer_call minus (timer_enter entry_time) now = minus now entry_time)
  ∧ Forall (λ entry, entry.2 = minus entry.1 entry_time)
           (elapsed_timer minus entry_time body).1.
Proof.
  split; [done|]. unfold elapsed_timer.
  pose proof (run_block_reports (timer_enter entry_time) entry_time body eq_refl) as H.
  by destruct (run_block minus (timer_enter entry_time) entry_time body).
Qed.

(** Once the block has ended, the callable keeps returning the length of
    the block. *)
Lemma timer_call_after_exit (fr : timer_frame) (end_ now : Time) :
  timer_call minus (timer_exit fr end_) now = minus end_ (start fr).
Proof. reflexivity. Qed.

End ElapsedTimerProperties.

Lemma run_block_nonnegative (fr : timer_frame) (now : Z) (body : list block_step) :
  elapsed fr = ReadsClock →
  (start fr ≤ now)%Z →
  monotone_from now body →
  Forall (λ entry, (0 ≤ entry.2)%Z) (run_block Z.sub fr now body).1.
Proof.
  intros Hfr. revert now.
  induction body as [|[until|] rest IH]; intros now Hle Hmono; cbn in *.
  - constructor.
  - destruct Hmono as [Hstep Hmono]. apply IH; [lia|done].
  - specialize (IH now Hle Hmono).
    destruct (run_block Z.sub fr now rest) as [log end_].
    constructor; [|exact IH]. cbn. rewrite timer_call_running by done. lia.
Qed.

(** On a clock that never runs backwards, no call reports a negative time. *)
Lemma elapsed_timer_nonnegative (entry_time : Z) (body : list block_step) :
  monotone_from entry_time body →
  Forall (λ entry, (0 ≤ entry.2)%Z) (elapsed_timer Z.sub entry_time body).1.
Proof.
  intros Hmono. unfold elapsed_timer.
  pose proof (run_block_nonnegative (timer_enter entry_time) entry_time body
                eq_refl (Z.le_refl _) Hmono) as H.
  by destruct (run_block Z.sub (timer_enter entry_time) entry_time body).
Qed.

Example elapsed_timer_run :
  elapsed_timer Z.sub 10 [Wait 12; CallTimer; Wait 15; CallTimer; Wait 20] =
  ([(12, 2); (15, 5)], mkTimerFrame 10 (Frozen 20)).
Proof. reflexivity. Qed.

Example elapsed_timer_after_exit :
  timer_call Z.sub (elapsed_timer Z.sub 10 [Wait 20]).2 35 = 10.
Proof. reflexivity. Qed.

(** * Further properties of [train] *)

Definition is_flush_call (ev : Event) : bool :=
  match ev with
  | CallStdoutFlush => true
  | _ => false
  end.

(** Calls of [train] in sequence, one per checkpoint name, with the other
    arguments kept: the results in order, and the state left at the end. *)
Fixpoint train_each (fit : nat → FitCall → World → outcome History * World)
    (model : nat) (data : gmap string (list ndarray)) (o : TrainArgs)
    (names : list string) (w : World) : list (outcome History) * World :=
  match names with
  | [] => ([], w)
  | name :: rest =>
      match train fit model data (with_checkpoint name o) w with
      | (_, r, w1) =>
          match train_each fit model data o rest w1 with
          | (rs, w2) => (r :: rs, w2)
          end
      end
  end.

(** A state in which an earlier run has left a checkpoint under ["m1"]. *)
Definition stale_weights : Weights := WeightsOf [9].

Definition stale_world : World :=
  set_fs (<["checkpoints/m1.h5" := RegularFile (Hdf5Weights stale_weights)]>
            (<["checkpoints/" := Directory]> ∅)) fresh_world.

Definition run_stale : list Event * outcome History * World :=
  train sample_fit 7 sample_data opts_m1 stale_world.

(** A state in which ['checkpoints/'] is taken by a regular file. *)
Definition blocked_world : World :=
  set_fs (<["checkpoints/" := RegularFile Unreadable]> ∅) fresh_world.

Definition run_blocked : list Event * outcome History * World :=
  train sample_fit 7 sample_data opts_m1 blocked_world.

(** A call that hands [validation_data] over through [**fit_kwargs]. *)
Definition opts_twice : TrainArgs :=
  mkTrainArgs 100 128 default_callbacks (Some "m1") "val_loss" 1
              (<["validation_data" := PyNone]> ∅).

Definition run_twice : list Event * outcome History * World :=
  train sample_fit 7 sample_data opts_twice fresh_world.

(** C1, as first stated, fails.  The file found after [fit] need not be
    one this run has saved.  Here an earlier run has left a checkpoint
    under ["m1"] and this run, having no validation data, saves none: the
    file is there once [fit] has returned, [train] loads it, and the model
    ends with the parameters of the earlier run, which are neither the
    best nor the last of this one. *)
Lemma reloaded_weights_need_not_be_best :
  checkpoint opts_m1 = Some "m1"
  ∧ CallFit 7 (fit_args opts_m1 sample_xy) (entered opts_m1 stale_world)
            (Ok sample_history)
            (left_by sample_fit opts_m1 sample_xy stale_world)
    ∈ trace_of run_stale
  ∧ is_file (left_by sample_fit opts_m1 sample_xy stale_world)
            ("checkpoints/" +:+ "m1" +:+ ".h5") = true
  ∧ weights (left_by sample_fit opts_m1 sample_xy stale_world) !! 7%nat
    = Some last_weights
  ∧ weights (world_of run_stale) !! 7%nat = Some stale_weights
  ∧ weights (world_of run_stale) !! 7%nat ≠ Some best_weights
  ∧ weights (world_of run_stale) !! 7%nat ≠ Some last_weights.
Proof.
  split; [reflexivity|]. split; [in_trace|].
  split; [run_eq|]. split; [run_eq|]. split; [run_eq|].
  split; by vm_compute.
Qed.

Section TrainFurtherProperties.

Variable keras_fit : nat → FitCall → World → outcome History * World.

Lemma checkpoint_file_not_dir (name : string) :
  checkpoint_file name ≠ "checkpoints/".
Proof.
  unfold checkpoint_file. cbn. intros H. simplify_eq. by destruct name.
Qed.

Lemma prepare_frame o w t r w0 :
  prepare o w = (t, r, w0) →
  weights w0 = weights w
  ∧ warnings_log w0 = warnings_log w
  ∧ (∀ ref, ref ≠ callbacks o → heap w0 !! ref = heap w !! ref)
  ∧ (∀ p, p ≠ "checkpoints/" → fs w0 !! p = fs w !! p).
Proof.
  intros H. py_exec.
  py_cases; repeat split; intros; cbn; by rewrite ?lookup_insert_ne.
Qed.

Lemma finish_frame model o h w t r w1 :
  finish model o h w = (t, r, w1) →
  heap w1 = heap w ∧ fs w1 = fs w
  ∧ (∀ m', m' ≠ model → weights w1 !! m' = weights w !! m').
Proof.
  intros H. py_exec.
  py_cases; repeat split; intros; cbn; by rewrite ?lookup_insert_ne.
Qed.

Lemma prepare_error o w t e w0 :
  prepare o w = (t, Raised e, w0) →
  t = [CallIsdir "checkpoints/" false; CallMakedirs "checkpoints/" (Raised e)]
  ∧ w0 = w
  ∧ (e = FileExistsError "checkpoints/" ∨ e = PermissionError "checkpoints/").
Proof.
  intros H. py_exec. py_cases.
  all: match goal with
       | Hd : negb _ = true |- _ => apply negb_true_iff in Hd; rewrite Hd
       end; auto.
Qed.

Lemma prepare_no_failure o w t w0 :
  prepare o w = (t, Ok tt, w0) → Forall (λ ev, event_exception ev = None) t.
Proof. intros H. py_exec. py_cases; repeat constructor. Qed.

Lemma bind_dataset_error data w e :
  bind_dataset data w = ([], Raised e, w) →
  e = KeyError "train" ∨ e = KeyError "test" ∨ ∃ msg, e = ValueError msg.
Proof.
  unfold bind_dataset, dict_getitem, unpack2. py_unfold.
  intros H. py_cases; eauto.
Qed.

Lemma filter_fit_none (l : list Event) :
  Forall (λ ev, is_fit_call ev = false) l →
  filter (λ ev, is_fit_call ev = true) l = [].
Proof.
  induction 1 as [|ev l Hev _ IH]; [done|].
  rewrite filter_cons_False; [done|congruence].
Qed.



(** X4. [train] calls [fit] at most once, and exactly once in a call that
    returns. *)
Theorem train_calls_fit_once model data o w tr res w1 :
  train keras_fit model data o w = (tr, res, w1) →
  (length (filter (λ ev, is_fit_call ev = true) tr) ≤ 1)%nat
  ∧ (∀ h, res = Ok h →
     length (filter (λ ev, is_fit_call ev = true) tr) = 1%nat).
Proof.
  intros H. apply train_run in H.
  destruct H as [e Hd|xyv t e wp Hd Hp|xyv t wp k Hd Hp Hk
                |xyv t wp e wf Hd Hp Hk Hf|xyv t wp h wf t2 res w1 Hd Hp Hk Hf Hfin];
    rewrite ?filter_app, ?filter_cons_True by done;
    rewrite ?(filter_fit_none _ (prepare_no_fit _ _ _ _ _ Hp));
    rewrite ?(filter_fit_none _ (finish_no_fit _ _ _ _ _ _ _ Hfin));
    cbn; split; try lia; try done.
Qed.


Lemma not_in_quiet (ev : Event) (l : list Event) :
  Forall (λ ev', event_exception ev' = None) l →
  is_Some (event_exception ev) → ev ∉ l.
Proof.
  intros Hl [e He] Hin. rewrite Forall_forall in Hl.
  apply Hl in Hin. congruence.
Qed.

Lemma finish_no_makedirs_failure model o h w t r w1 path e :
  finish model o h w = (t, r, w1) → CallMakedirs path (Raised e) ∉ t.
Proof.
  intros H Hin. apply finish_no_makedirs in H. rewrite Forall_forall in H.
  by apply H in Hin.
Qed.

(** X5. The directory is made before anything else is touched: when
    [os.makedirs] fails, it is the second and last call of [train], the
    callback list has not been extended, nothing has been written, and
    [fit] has not been called. *)
Theorem train_makedirs_failure model data o w tr res w1 path e :
  train keras_fit model data o w = (tr, res, w1) →
  CallMakedirs path (Raised e) ∈ tr →
  tr = [CallIsdir "checkpoints/" false; CallMakedirs "checkpoints/" (Raised e)]
  ∧ res = Raised e
  ∧ heap w1 = heap w
  ∧ stdout w1 = stdout w.
Proof.
  intros H Hin. apply train_run in H.
  assert (Hq : ∀ l, Forall (λ ev', event_exception ev' = None) l →
                    CallMakedirs path (Raised e) ∈ l → False).
  { intros l Hl. by apply not_in_quiet. }
  destruct H as [e' Hd|xyv t e' wp Hd Hp|xyv t wp k Hd Hp Hk
                |xyv t wp e' wf Hd Hp Hk Hf|xyv t wp h wf t2 res w1 Hd Hp Hk Hf Hfin].
  - by apply elem_of_nil in Hin.
  - destruct (prepare_error _ _ _ _ _ Hp) as (-> & -> & _).
    apply elem_of_cons in Hin as [?|Hin]; [done|].
    apply list_elem_of_singleton in Hin. by simplify_eq.
  - destruct (Hq _ (prepare_no_failure _ _ _ _ Hp) Hin).
  - apply elem_of_app in Hin as [Hin|Hin];
      [destruct (Hq _ (prepare_no_failure _ _ _ _ Hp) Hin)|].
    by apply list_elem_of_singleton in Hin.
  - apply elem_of_app in Hin as [Hin|Hin];
      [destruct (Hq _ (prepare_no_failure _ _ _ _ Hp) Hin)|].
    apply elem_of_cons in Hin as [?|Hin]; [done|].
    destruct (finish_no_makedirs_failure _ _ _ _ _ _ _ _ _ Hfin Hin).
Qed.

(** X6. [train] looks for the checkpoint file, not for a file saved by this
    run.  When the file was there on entry and [fit] returns having left
    it alone, [train] loads it without a warning: the model ends with the
    parameters of the earlier run. *)
Theorem train_loads_stale_checkpoint model data o name p w tr res w1 m a w0 h w2 :
  checkpoint o = Some name →
  fs w !! checkpoint_file name = Some (RegularFile (Hdf5Weights p)) →
  train keras_fit model data o w = (tr, res, w1) →
  CallFit m a w0 (Ok h) w2 ∈ tr →
  fs w2 !! checkpoint_file name = fs w0 !! checkpoint_file name →
  res = Ok h ∧ weights w1 !! model = Some p ∧ warned tr = [].
Proof.
  intros Hc Hfile H Hin Hkept.
  destruct (fit_call_inv _ _ _ _ _ _ _ _ _ _ _ _ _ H Hin)
    as (xyv & t & t2 & _ & Hp & -> & _ & _ & -> & Hfin).
  destruct (prepare_frame _ _ _ _ _ Hp) as (_ & _ & _ & Hfs).
  rewrite (Hfs _ (checkpoint_file_not_dir name)), Hfile in Hkept.
  assert (Hisfile : is_file w2 (checkpoint_file name) = true).
  { unfold is_file. by rewrite Hkept. }
  destruct (finish_file_present _ _ _ _ _ _ _ _ Hc Hisfile Hfin)
    as (t' & lr & -> & _ & Hload & -> & Hwarn).
  unfold load_weights_step in Hload.
  assert (Hsame : fs (world_of (say_done o w2)) = fs w2).
  { unfold say_done. by destruct (truthy (verbose o)). }
  rewrite Hsame, Hkept in Hload. simplify_eq/=.
  repeat split; [by rewrite lookup_insert_eq|].
  rewrite warned_app.
  replace (warned (CallFit model a w0 (Ok h) w2
                   :: t' ++ [CallIsfile (checkpoint_file name) true;
                             CallLoadWeights model (checkpoint_file name) (Ok ())]))
    with (warned (t' ++ [CallIsfile (checkpoint_file name) true;
                         CallLoadWeights model (checkpoint_file name) (Ok ())]))
    by done.
  rewrite Hwarn. by destruct (prepare_quiet _ _ _ _ _ Hp) as [-> _].
Qed.


(** One call that returns leaves the list it was given longer by its hook,
    provided [fit] does not touch that list. *)
Lemma train_extends_list model data o name w tr h w1 :
  (∀ m a w0 r w2, keras_fit m a w0 = (r, w2) →
                  heap w2 !! callbacks o = heap w0 !! callbacks o) →
  checkpoint o = Some name →
  train keras_fit model data o w = (tr, Ok h, w1) →
  deref w1 (callbacks o) =
  deref w (callbacks o)
  ++ [ModelCheckpoint (checkpoint_file name) (checkpoint_monitor o) true true].
Proof.
  intros Hfit Hc H. apply train_run in H.
  inversion H as [| | | |xyv t wp h' wf t2 res' w1' Hd Hp Hk Hf Hfin]; subst.
  destruct (prepare_checkpoint _ _ _ _ _ Hc Hp) as [_ <-].
  destruct (finish_frame _ _ _ _ _ _ _ Hfin) as (Hheap & _).
  unfold deref. by rewrite Hheap, (Hfit _ _ _ _ _ Hf).
Qed.

(** X7. Hooks pile up in the list given as [callbacks], the default list
    included: after calls in sequence that all return, made with the same
    list and a framework that leaves it alone, the list holds what it held
    at first, followed by one hook per call, in the order of the calls. *)
Theorem train_each_accumulates_hooks model data o names w rs w' :
  (∀ m a w0 r w2, keras_fit m a w0 = (r, w2) →
                  heap w2 !! callbacks o = heap w0 !! callbacks o) →
  train_each keras_fit model data o names w = (rs, w') →
  Forall (λ r, ∃ h, r = Ok h) rs →
  deref w' (callbacks o) =
  deref w (callbacks o)
  ++ map (λ name, ModelCheckpoint (checkpoint_file name) (checkpoint_monitor o)
                                  true true) names.
Proof.
  intros Hfit. revert w rs.
  induction names as [|name names IH]; intros w rs H Hok; cbn in H.
  - simplify_eq. by rewrite app_nil_r.
  - destruct (train keras_fit model data (with_checkpoint name o) w)
      as [[tr r] w1] eqn:Hrun.
    destruct (train_each keras_fit model data o names w1) as [rs' w2] eqn:Hrest.
    simplify_eq. apply Forall_cons in Hok as [[h ->] Hok].
    rewrite (IH _ _ Hrest Hok).
    pose proof (train_extends_list model data (with_checkpoint name o) name
                  w tr h w1 Hfit eq_refl Hrun) as Hone.
    cbn in Hone. rewrite Hone. cbn. by rewrite <- app_assoc.
Qed.

Lemma duplicate_validation_data (kwargs : gmap string pyval) :
  is_Some (kwargs !! "validation_data") →
  duplicate_keyword kwargs = Some "validation_data".
Proof.
  intros Hs. unfold duplicate_keyword. cbn. by rewrite bool_decide_true.
Qed.

(** X8. [validation_data] cannot be passed through [**fit_kwargs]: [train]
    gives that keyword itself, so the call never enters [fit] and never
    returns.  When it ends with the [TypeError] of the doubled keyword in
    a call with [checkpoint] set, the directory has been made and the hook
    has been appended all the same. *)
Theorem train_validation_data_twice model data o w tr res w1 :
  is_Some (extra_fit_kwargs o !! "validation_data") →
  train keras_fit model data o w = (tr, res, w1) →
  Forall (λ ev, is_fit_call ev = false) tr
  ∧ (∃ e, res = Raised e)
  ∧ (∀ name msg, checkpoint o = Some name → res = Raised (TypeError msg) →
       is_dir w1 "checkpoints/" = true
       ∧ deref w1 (callbacks o) =
         deref w (callbacks o)
         ++ [ModelCheckpoint (checkpoint_file name) (checkpoint_monitor o)
                             true true]).
Proof.
  intros Hkw H. apply duplicate_validation_data in Hkw. apply train_run in H.
  destruct H as [e Hd|xyv t e wp Hd Hp|xyv t wp k Hd Hp Hk
                |xyv t wp e wf Hd Hp Hk Hf|xyv t wp h wf t2 res w1 Hd Hp Hk Hf Hfin];
    try congruence.
  - split; [apply Forall_nil_2|split; [by eexists|]]. intros name msg _ [= ->].
    apply bind_dataset_error in Hd as [?|[?|[? ?]]]; done.
  - split; [by apply prepare_no_fit in Hp|split; [by eexists|]].
    intros name msg _ [= ->].
    destruct (prepare_error _ _ _ _ _ Hp) as (_ & _ & [?|?]); done.
  - split; [by apply prepare_no_fit in Hp|split; [by eexists|]].
    intros name msg Hc _. by apply (prepare_checkpoint _ _ _ _ _ Hc Hp).
Qed.

Lemma prepare_flush o w t w0 :
  truthy (verbose o) = true →
  prepare o w = (t, Ok tt, w0) →
  ∃ pre, t = pre ++ [CallStdoutWrite ("Training..." +:+ newline); CallStdoutFlush]
         ∧ Forall (λ ev, is_flush_call ev = false) pre.
Proof.
  intros Hv H. py_exec. rewrite Hv in H. py_cases.
  all: first [ by eexists [_; _]; split; [|repeat constructor]
             | by eexists [_]; split; [|repeat constructor]
             | by eexists []; split; [|repeat constructor] ].
Qed.

Lemma finish_no_flush model o h w t r w1 :
  finish model o h w = (t, r, w1) → Forall (λ ev, is_flush_call ev = false) t.
Proof. intros H. py_exec. py_cases; repeat constructor. Qed.

(** X9. A verbose call flushes standard output once: right after the start
    notice and right before [fit] is entered.  The completion notice is
    not flushed. *)
Theorem train_flushes_start_notice model data o w tr res w1 m a w0 r w2 :
  truthy (verbose o) = true →
  train keras_fit model data o w = (tr, res, w1) →
  CallFit m a w0 r w2 ∈ tr →
  ∃ pre after,
    tr = pre ++ [CallStdoutWrite ("Training..." +:+ newline); CallStdoutFlush;
                 CallFit m a w0 r w2] ++ after
    ∧ Forall (λ ev, is_flush_call ev = false) pre
    ∧ Forall (λ ev, is_flush_call ev = false) after.
Proof.
  intros Hv H Hin.
  destruct (fit_call_inv _ _ _ _ _ _ _ _ _ _ _ _ _ H Hin)
    as (xyv & t & t2 & _ & Hp & _ & _ & _ & -> & Hfin).
  destruct (prepare_flush _ _ _ _ Hv Hp) as (pre & -> & Hpre).
  exists pre, t2. split; [by rewrite <- app_assoc|]. split; [done|].
  destruct r as [h|e]; [by apply finish_no_flush in Hfin|].
  destruct Hfin as (-> & _). constructor.
Qed.

(** X10. Before [fit] is entered, [train] has touched nothing but the
    callback list it was given, the entry ['checkpoints/'] of the file
    system and standard output: the model's parameters, every other list,
    every other path and the warnings are as they were on entry. *)
Theorem train_state_handed_to_fit model data o w tr res w1 m a w0 r w2 :
  train keras_fit model data o w = (tr, res, w1) →
  CallFit m a w0 r w2 ∈ tr →
  weights w0 = weights w
  ∧ warnings_log w0 = warnings_log w
  ∧ (∀ ref, ref ≠ callbacks o → heap w0 !! ref = heap w !! ref)
  ∧ (∀ p, p ≠ "checkpoints/" → fs w0 !! p = fs w !! p).
Proof.
  intros H Hin.
  destruct (fit_call_inv _ _ _ _ _ _ _ _ _ _ _ _ _ H Hin)
    as (xyv & t & t2 & _ & Hp & _).
  by apply prepare_frame in Hp.
Qed.

(** X11. Once [fit] has returned, [train] writes no file, touches no list,
    and changes the parameters of no model but the one it trained. *)
Theorem train_after_fit_frame model data o w tr res w1 m a w0 h w2 :
  train keras_fit model data o w = (tr, res, w1) →
  CallFit m a w0 (Ok h) w2 ∈ tr →
  fs w1 = fs w2
  ∧ heap w1 = heap w2
  ∧ (∀ m', m' ≠ model → weights w1 !! m' = weights w2 !! m').
Proof.
  intros H Hin.
  destruct (fit_call_inv _ _ _ _ _ _ _ _ _ _ _ _ _ H Hin)
    as (xyv & t & t2 & _ & _ & _ & _ & _ & _ & Hfin).
  destruct (finish_frame _ _ _ _ _ _ _ Hfin) as (? & ? & ?). by repeat split.
Qed.

End TrainFurtherProperties.

(** ** Examples of the further properties *)

Lemma train_fit_arguments_witness :
  sample_data_valid !! "train" = Some [Ndarray [1; 2]; Ndarray [0; 1]]
  ∧ fit_validation_data (fit_args opts_m1 sample_xyv) = sample_data_valid !! "valid"
  ∧ fit_batch_size (fit_args opts_m1 sample_xyv) = 128
  ∧ fit_nb_epoch (fit_args opts_m1 sample_xyv) = 100.
Proof.
  destruct (train_fit_arguments sample_fit 7 sample_data_valid opts_m1 fresh_world
              (trace_of run_m1_valid) (result_of run_m1_valid)
              (world_of run_m1_valid)
              7 (fit_args opts_m1 sample_xyv) (entered opts_m1 fresh_world)
              (Ok sample_history)
              (left_by sample_fit opts_m1 sample_xyv fresh_world))
    as (_ & Htrain & Hvalid & Hbatch & Hepoch & _).
  - run_eq.
  - in_trace.
  - split; [exact Htrain|split; [exact Hvalid|split; [exact Hbatch|exact Hepoch]]].
Defined.


Lemma train_calls_fit_once_witness :
  length (filter (λ ev, is_fit_call ev = true) (trace_of run_m1)) = 1%nat.
Proof.
  destruct (train_calls_fit_once sample_fit 7 sample_data opts_m1 fresh_world
              (trace_of run_m1) (result_of run_m1) (world_of run_m1)) as [_ H].
  - run_eq.
  - apply (H sample_history). run_eq.
Defined.

Lemma train_makedirs_failure_witness :
  trace_of run_blocked =
  [CallIsdir "checkpoints/" false;
   CallMakedirs "checkpoints/" (Raised (FileExistsError "checkpoints/"))]
  ∧ result_of run_blocked = Raised (FileExistsError "checkpoints/")
  ∧ heap (world_of run_blocked) = heap blocked_world
  ∧ stdout (world_of run_blocked) = stdout blocked_world.
Proof.
  apply (train_makedirs_failure sample_fit 7 sample_data opts_m1 blocked_world
           (trace_of run_blocked) (result_of run_blocked) (world_of run_blocked)
           "checkpoints/" (FileExistsError "checkpoints/")).
  - run_eq.
  - in_trace.
Defined.

Lemma train_loads_stale_checkpoint_witness :
  result_of run_stale = Ok sample_history
  ∧ weights (world_of run_stale) !! 7%nat = Some stale_weights
  ∧ warned (trace_of run_stale) = [].
Proof.
  apply (train_loads_stale_checkpoint sample_fit 7 sample_data opts_m1 "m1"
           stale_weights stale_world (trace_of run_stale) (result_of run_stale)
           (world_of run_stale)
           7 (fit_args opts_m1 sample_xy) (entered opts_m1 stale_world)
           sample_history (left_by sample_fit opts_m1 sample_xy stale_world)).
  - reflexivity.
  - run_eq.
  - run_eq.
  - in_trace.
  - run_eq.
Defined.

Lemma run_hook_heap (args : FitCall) (cb : Callback) (w : World) :
  heap (run_hook args cb w) = heap w.
Proof.
  unfold run_hook. destruct cb; [done|]. by destruct (metric_reported args monitor).
Qed.

Lemma sample_fit_heap model args w r w' :
  sample_fit model args w = (r, w') → heap w' = heap w.
Proof.
  unfold sample_fit. intros [= _ <-].
  assert (Hfold : ∀ l acc, heap (foldl (λ acc cb, run_hook args cb acc) acc l)
                           = heap acc).
  { induction l as [|cb l IH]; intros acc; [done|]. cbn.
    by rewrite IH, run_hook_heap. }
  destruct (truthy (fit_verbose args)); cbn; apply Hfold.
Qed.

Lemma train_each_accumulates_hooks_witness :
  deref (train_each sample_fit 7 sample_data train_defaults
                    ["m1"; "m2"; "m1"] fresh_world).2 default_callbacks =
  [ModelCheckpoint "checkpoints/m1.h5" "val_loss" true true;
   ModelCheckpoint "checkpoints/m2.h5" "val_loss" true true;
   ModelCheckpoint "checkpoints/m1.h5" "val_loss" true true].
Proof.
  apply (train_each_accumulates_hooks sample_fit 7 sample_data train_defaults
           ["m1"; "m2"; "m1"] fresh_world
           (train_each sample_fit 7 sample_data train_defaults
                       ["m1"; "m2"; "m1"] fresh_world).1).
  - intros m a w0 r w2 H. by rewrite (sample_fit_heap _ _ _ _ _ H).
  - run_eq.
  - vm_compute. repeat constructor; by eexists.
Defined.

Lemma train_validation_data_twice_witness :
  Forall (λ ev, is_fit_call ev = false) (trace_of run_twice)
  ∧ is_dir (world_of run_twice) "checkpoints/" = true
  ∧ deref (world_of run_twice) default_callbacks =
    [ModelCheckpoint "checkpoints/m1.h5" "val_loss" true true].
Proof.
  destruct (train_validation_data_twice sample_fit 7 sample_data opts_twice
              fresh_world (trace_of run_twice) (result_of run_twice)
              (world_of run_twice)) as (Hnofit & _ & H).
  - by eexists.
  - run_eq.
  - split; [exact Hnofit|].
    apply (H "m1" "fit() got multiple values for keyword argument validation_data").
    + reflexivity.
    + run_eq.
Defined.

Lemma train_flushes_start_notice_witness :
  ∃ pre after,
    trace_of run_m1 =
    pre ++ [CallStdoutWrite ("Training..." +:+ newline); CallStdoutFlush;
            CallFit 7 (fit_args opts_m1 sample_xy) (entered opts_m1 fresh_world)
                    (Ok sample_history)
                    (left_by sample_fit opts_m1 sample_xy fresh_world)] ++ after
    ∧ Forall (λ ev, is_flush_call ev = false) pre
    ∧ Forall (λ ev, is_flush_call ev = false) after.
Proof.
  apply (train_flushes_start_notice sample_fit 7 sample_data opts_m1 fresh_world
           (trace_of run_m1) (result_of run_m1) (world_of run_m1)).
  - reflexivity.
  - run_eq.
  - in_trace.
Defined.

Lemma train_state_handed_to_fit_witness :
  weights (entered opts_m1 stale_world) = weights stale_world
  ∧ fs (entered opts_m1 stale_world) !! "checkpoints/m1.h5"
    = fs stale_world !! "checkpoints/m1.h5".
Proof.
  destruct (train_state_handed_to_fit sample_fit 7 sample_data opts_m1 stale_world
              (trace_of run_stale) (result_of run_stale) (world_of run_stale)
              7 (fit_args opts_m1 sample_xy) (entered opts_m1 stale_world)
              (Ok sample_history)
              (left_by sample_fit opts_m1 sample_xy stale_world))
    as (Hw & _ & _ & Hfs).
  - run_eq.
  - in_trace.
  - split; [exact Hw|]. by apply Hfs.
Defined.

Lemma train_after_fit_frame_witness :
  fs (world_of run_m1_valid) = fs (left_by sample_fit opts_m1 sample_xyv fresh_world)
  ∧ heap (world_of run_m1_valid)
    = heap (left_by sample_fit opts_m1 sample_xyv fresh_world)
  ∧ weights (world_of run_m1_valid) !! 8%nat
    = weights (left_by sample_fit opts_m1 sample_xyv fresh_world) !! 8%nat.
Proof.
  destruct (train_after_fit_frame sample_fit 7 sample_data_valid opts_m1 fresh_world
              (trace_of run_m1_valid) (result_of run_m1_valid)
              (world_of run_m1_valid)
              7 (fit_args opts_m1 sample_xyv) (entered opts_m1 fresh_world)
              sample_history (left_by sample_fit opts_m1 sample_xyv fresh_world))
    as (Hfs & Hheap & Hw).
  - run_eq.
  - in_trace.
  - split; [exact Hfs|split; [exact Hheap|by apply Hw]].
Defined.

(** * Further properties of [elapsed_timer] *)

Section ElapsedTimerFurtherProperties.

Context {Time : Type} (minus : Time → Time → Time).

(** The reading of the clock when a body ends. *)
Fixpoint last_reading (now : Time) (body : list (@block_step Time)) : Time :=
  match body with
  | [] => now
  | Wait until :: rest => last_reading until rest
  | CallTimer :: rest => last_reading now rest
  end.

Lemma run_block_end (fr : timer_frame) (now : Time) (body : list block_step) :
  (run_block minus fr now body).2 = last_reading now body.
Proof.
  revert now. induction body as [|[until|] rest IH]; intros now; cbn.
  - done.
  - apply IH.
  - specialize (IH now). by destruct (run_block minus fr now rest).
Qed.

(** X12. Once the block has ended normally the callable no longer reads the
    clock: whenever it is called, it returns the reading at the end of the
    block minus the reading on entry. *)
Theorem elapsed_timer_frozen_after_exit (entry_time : Time)
    (body : list block_step) (later : Time) :
  timer_call minus (elapsed_timer minus entry_time body).2 later =
  minus (last_reading entry_time body) entry_time.
Proof.
  unfold elapsed_timer.
  pose proof (run_block_end (timer_enter entry_time) entry_time body) as H.
  destruct (run_block minus (timer_enter entry_time) entry_time body) as [log end_].
  cbn in *. by rewrite H.
Qed.

End ElapsedTimerFurtherProperties.

Lemma run_block_lower_bound (fr : timer_frame) (now : Z) (body : list block_step) :
  elapsed fr = ReadsClock →
  monotone_from now body →
  Forall (λ entry, (now - start fr ≤ entry.2)%Z) (run_block Z.sub fr now body).1.
Proof.
  intros Hfr. revert now.
  induction body as [|[until|] rest IH]; intros now Hmono; cbn in *.
  - constructor.
  - destruct Hmono as [Hstep Hmono]. specialize (IH until Hmono).
    eapply Forall_impl; [exact IH|]. cbn. intros entry ?. lia.
  - specialize (IH now Hmono).
    destruct (run_block Z.sub fr now rest) as [log end_].
    constructor; [|exact IH]. cbn. rewrite timer_call_running by done. lia.
Qed.

Lemma run_block_sorted (fr : timer_frame) (now : Z) (body : list block_step) :
  elapsed fr = ReadsClock →
  monotone_from now body →
  Sorted Z.le ((run_block Z.sub fr now body).1.*2).
Proof.
  intros Hfr. revert now.
  induction body as [|[until|] rest IH]; intros now Hmono; cbn in *.
  - constructor.
  - destruct Hmono as [_ Hmono]. by apply IH.
  - specialize (IH now Hmono).
    pose proof (run_block_lower_bound fr now rest Hfr Hmono) as Hlow.
    destruct (run_block Z.sub fr now rest) as [log end_]. cbn in *.
    constructor; [exact IH|].
    rewrite timer_call_running by done.
    destruct Hlow as [|entry log' Hentry _]; constructor. exact Hentry.
Qed.

(** X13. On a clock that never runs backwards, the callable never reports a
    negative time, and what it reports never decreases from one call to
    the next. *)
Theorem elapsed_timer_on_monotone_clock (entry_time : Z) (body : list block_step) :
  monotone_from entry_time body →
  Forall (λ entry, (0 ≤ entry.2)%Z) (elapsed_timer Z.sub entry_time body).1
  ∧ Sorted Z.le ((elapsed_timer Z.sub entry_time body).1.*2).
Proof.
  intros Hmono. unfold elapsed_timer.
  pose proof (run_block_nonnegative (timer_enter entry_time) entry_time body
                eq_refl (Z.le_refl _) Hmono) as Hpos.
  pose proof (run_block_sorted (timer_enter entry_time) entry_time body
                eq_refl Hmono) as Hsorted.
  by destruct (run_block Z.sub (timer_enter entry_time) entry_time body).
Qed.

Lemma elapsed_timer_on_monotone_clock_witness :
  Forall (λ entry, (0 ≤ entry.2)%Z)
         (elapsed_timer Z.sub 10 [Wait 12; CallTimer; CallTimer; Wait 15; CallTimer]).1
  ∧ Sorted Z.le
      ((elapsed_timer Z.sub 10 [Wait 12; CallTimer; CallTimer; Wait 15; CallTimer]).1.*2).
Proof.
  apply (elapsed_timer_on_monotone_clock 10
           [Wait 12; CallTimer; CallTimer; Wait 15; CallTimer]).
  cbn. lia.
Defined.

(** A clock set back during the block gives a negative reading. *)
Example elapsed_timer_clock_set_back :
  (elapsed_timer Z.sub 10 [Wait 4; CallTimer]).1 = [(4, -6)].
Proof. reflexivity. Qed.
